(** * Calorie-burn dashboard: the numeric core of [app.py]

    A shallow embedding of the computations of [app.py] that are not page
    layout: [calculate_max_heart_rate], [get_intensity_zone], and the
    statements of the "ANALYZE WORKOUT" handler that derive the burn rate,
    the BMI with its label, the recommendation and the encoded gender.

    Numbers.  Python's [float] and NumPy's [float64] are IEEE 754 binary64;
    they are modelled by Rocq's primitive [float], whose operations are the
    same correctly rounded ones.  [age] is a Python [int] and is modelled by
    [Z].  The sliders deliver Python ints far below [2^53]; such ints are
    binary64 values, and Python's [/] on two of them returns the binary64
    quotient, so [get_intensity_zone] and the BMI expression take their
    operands as binary64 values and the handler converts with
    [float_of_int].

    Effects.  A Python call runs against the module's globals and either
    returns or raises; [Py] is the corresponding state-and-exception monad.
    The rendering calls ([st.markdown], [st.metric], ...) are not part of
    the embedding. *)

From Stdlib Require Import ZArith Bool String List Lia.
From Stdlib Require Import Floats.
Import ListNotations.

#[local] Set Warnings "-inexact-float".
#[local] Open Scope string_scope.

(** ** Python outcomes and globals *)

Inductive exn : Type :=
| ZeroDivisionError
| OverflowError
| KeyError (key : string).

Inductive outcome (A : Type) : Type :=
| Return (a : A)
| Raise (e : exn).

Arguments Return {A} a.
Arguments Raise {A} e.

(** A [dict] with string keys and values, in insertion order. *)
Definition dict : Type := list (string * string).

(** [d[key]]: the value of the first entry under [key], else [KeyError]. *)
Fixpoint dict_getitem (d : dict) (key : string) : outcome string :=
  match d with
  | [] => Raise (KeyError key)
  | (k, v) :: rest => if String.eqb k key then Return v else dict_getitem rest key
  end.

(** The module-level names the modelled statements read. *)
Record Globals : Type := mkGlobals {
  MEDICAL_COLORS : dict
}.

(** The globals as the script binds them (lines 15-25). *)
Definition script_globals : Globals :=
  {| MEDICAL_COLORS :=
       [ ("primary", "#2C5F8D");
         ("secondary", "#4A90C4");
         ("success", "#10B981");
         ("warning", "#F59E0B");
         ("danger", "#EF4444");
         ("light_bg", "#F8FAFC");
         ("card_bg", "#FFFFFF");
         ("text_primary", "#1E293B");
         ("text_secondary", "#64748B") ] |}.

Definition Py (A : Type) : Type := Globals -> outcome A * Globals.

Definition ret {A : Type} (a : A) : Py A := fun g => (Return a, g).

Definition raise {A : Type} (e : exn) : Py A := fun g => (Raise e, g).

Definition bind {A B : Type} (m : Py A) (k : A -> Py B) : Py B :=
  fun g =>
    match m g with
    | (Return a, g') => k a g'
    | (Raise e, g') => (Raise e, g')
    end.

Notation "x <- m ;; k" := (bind m (fun x => k))
  (at level 61, m at next level, right associativity).

(** Reading a global [dict] at a literal key. *)
Definition global_color (key : string) : Py string :=
  fun g => (dict_getitem (MEDICAL_COLORS g) key, g).

(** ** Python and NumPy arithmetic on binary64 *)

#[local] Open Scope float_scope.

(** [a / b] on Python floats: a zero divisor of either sign raises. *)
Definition py_truediv (a b : float) : Py float :=
  if b =? 0 then raise ZeroDivisionError else ret (a / b).

(** [x ** 2] on a Python float: the square, and [OverflowError] when a
    finite [x] has a square out of range.  Python takes the square from the
    C library's [pow], which need not round correctly; the model takes the
    correctly rounded product.  With glibc's [pow] the two agree at
    [h / 100] for every integer [h] of the height slider, and it is there
    that the statements about the BMI's value use [py_pow2]; elsewhere they
    can differ in the last place (at 1.6598, for one). *)
Definition py_pow2 (x : float) : Py float :=
  let y := x * x in
  if is_finite x && is_infinity y then raise OverflowError else ret y.

(** [a / b] with a NumPy [float64] on the left: plain IEEE division, which
    gives an infinity or a NaN on a zero divisor and never raises. *)
Definition np_truediv (a b : float) : float := a / b.

(** The binary64 value of a Python int, exact up to [2^53] in magnitude.
    On two ints within that bound Python's [/] is the binary64 quotient of
    the converted operands; beyond it [/] rounds the exact quotient once
    and raises [OverflowError] when that is out of range, which this
    conversion does not render. *)
Definition float_of_int (z : Z) : float :=
  SF2Prim (binary_normalize prec emax z 0 false).

(** ** The two functions of the module *)

(** Lines 164-166. *)
Definition calculate_max_heart_rate (age : Z) : Py Z :=
  ret (220 - age)%Z.

Record IntensityZone : Type := mkZone {
  zone : string;
  level : string;
  color : string;
  description : string;
  range : string
}.

(** Lines 168-219. *)
Definition get_intensity_zone (heart_rate max_hr : float) : Py IntensityZone :=
  q <- py_truediv heart_rate max_hr ;;
  let hr_percentage := q * 100 in
  if hr_percentage <? 50 then
    ret {| zone := "Rest"; level := "Very Light"; color := "#94A3B8";
           description := "Recovery and rest"; range := "< 50%" |}
  else if hr_percentage <? 60 then
    ret {| zone := "Zone 1"; level := "Light"; color := "#10B981";
           description := "Warm-up and recovery"; range := "50-60%" |}
  else if hr_percentage <? 70 then
    ret {| zone := "Zone 2"; level := "Moderate"; color := "#3B82F6";
           description := "Fat burning and endurance"; range := "60-70%" |}
  else if hr_percentage <? 80 then
    ret {| zone := "Zone 3"; level := "Vigorous"; color := "#F59E0B";
           description := "Aerobic capacity building"; range := "70-80%" |}
  else if hr_percentage <? 90 then
    ret {| zone := "Zone 4"; level := "Hard"; color := "#EF4444";
           description := "Anaerobic threshold"; range := "80-90%" |}
  else
    ret {| zone := "Zone 5"; level := "Maximum"; color := "#DC2626";
           description := "Maximum effort"; range := "90-100%" |}.

(** The dict of the first branch, by name. *)
Definition rest_zone : IntensityZone :=
  {| zone := "Rest"; level := "Very Light"; color := "#94A3B8";
     description := "Recovery and rest"; range := "< 50%" |}.

(** ** The statements of the handler (lines 342-466) *)

(** Line 343: [hr_percentage = (heart_rate / max_hr) * 100]. *)
Definition hr_percentage (heart_rate max_hr : float) : Py float :=
  q <- py_truediv heart_rate max_hr ;;
  ret (q * 100).

(** Line 365: [1 if gender == 'Male' else 0]. *)
Definition gender_encoded (gender : string) : Z :=
  if String.eqb gender "Male" then 1%Z else 0%Z.

(** The one-row frame handed to the model (lines 366-374). *)
Record InputData : Type := mkInputData {
  Gender : Z;
  Age : Z;
  Height : Z;
  Weight : Z;
  Duration : Z;
  Heart_Rate : Z;
  Body_Temp : float
}.

(** Line 378: [cal_per_min = prediction / duration], [prediction] a NumPy
    [float64]. *)
Definition cal_per_min (prediction duration : float) : Py float :=
  ret (np_truediv prediction duration).

(** Line 410: [bmi = weight / ((height/100) ** 2)]. *)
Definition bmi (weight height : float) : Py float :=
  m <- py_truediv height 100 ;;
  sq <- py_pow2 m ;;
  py_truediv weight sq.

(** Line 411. *)
Definition bmi_status (bmi : float) : string :=
  if (18.5 <=? bmi) && (bmi <=? 24.9) then "Normal"
  else if bmi <? 18.5 then "Underweight"
  else "Overweight".

Record Recommendation : Type := mkRecommendation {
  rec_color : string;
  rec_icon : string;
  rec_title : string;
  rec_text : string
}.

(** Lines 452-466. *)
Definition recommendation (cal_per_min : float) : Py Recommendation :=
  if 10 <? cal_per_min then
    c <- global_color "success" ;;
    ret {| rec_color := c; rec_icon := "✅";
           rec_title := "Excellent";
           rec_text := "High-intensity workout with optimal calorie burn rate." |}
  else if 7 <? cal_per_min then
    c <- global_color "secondary" ;;
    ret {| rec_color := c; rec_icon := "👍";
           rec_title := "Good";
           rec_text := "Moderate intensity - effective for endurance and fat burning." |}
  else
    c <- global_color "warning" ;;
    ret {| rec_color := c; rec_icon := "💡";
           rec_title := "Improvement";
           rec_text := "Consider increasing intensity to boost calorie expenditure." |}.

(** ** The evaluation as one function

    The spec's [evaluate] names the handler's derivations taken together;
    here they are sequenced in the order the script runs them (lines 378,
    381, 410, 411, 452-466), so that the first exception ends the run. *)

Record EvaluationReport : Type := mkReport {
  report_cal_per_min : float;
  report_intensity : IntensityZone;
  report_bmi : float;
  report_bmi_status : string;
  report_recommendation : Recommendation
}.

Definition evaluate (prediction duration heart_rate max_hr height weight : float)
  : Py EvaluationReport :=
  cpm <- cal_per_min prediction duration ;;
  intensity_info <- get_intensity_zone heart_rate max_hr ;;
  b <- bmi weight height ;;
  r <- recommendation cpm ;;
  ret {| report_cal_per_min := cpm;
         report_intensity := intensity_info;
         report_bmi := b;
         report_bmi_status := bmi_status b;
         report_recommendation := r |}.

(** The widgets' values (lines 284-339): a selectbox over ['Male', 'Female'],
    five integer sliders and one float slider. *)
Record WorkoutInput : Type := mkWorkoutInput {
  gender : string;
  age : Z;
  height : Z;
  weight : Z;
  duration : Z;
  heart_rate : Z;
  body_temp : float
}.

(** Lines 365-374. *)
Definition input_data (w : WorkoutInput) : InputData :=
  {| Gender := gender_encoded (gender w);
     Age := age w;
     Height := height w;
     Weight := weight w;
     Duration := duration w;
     Heart_Rate := heart_rate w;
     Body_Temp := body_temp w |}.

Section Handler.

(** [model.predict(input_data)[0]]: the unpickled model, an external
    collaborator. *)
Variable model_predict : InputData -> float.

(** Line 377. *)
Definition prediction (w : WorkoutInput) : float :=
  model_predict (input_data w).

(** Lines 342-343 and 363-466, for a pressed button.  The integer fields
    enter the divisions through [float_of_int]: this is the code's
    arithmetic for ints up to [2^53] in magnitude, the sliders' values
    among them. *)
Definition analyze (w : WorkoutInput) : Py EvaluationReport :=
  max_hr <- calculate_max_heart_rate (age w) ;;
  _ <- hr_percentage (float_of_int (heart_rate w)) (float_of_int max_hr) ;;
  evaluate (prediction w)
           (float_of_int (duration w))
           (float_of_int (heart_rate w))
           (float_of_int max_hr)
           (float_of_int (height w))
           (float_of_int (weight w)).

End Handler.

(** ** The zone table as the specification words it

    Section 4.2 of the specification: six rows, each a half-open interval of
    the percentage with a zone name and a level; the first row has no lower
    bound and the last no upper bound. *)

Record ZoneRow : Type := mkRow {
  row_lower : option float;   (* inclusive *)
  row_upper : option float;   (* exclusive *)
  row_zone : string;
  row_level : string
}.

Definition spec_zone_table : list ZoneRow :=
  [ mkRow None      (Some 50) "Rest"   "Very Light";
    mkRow (Some 50) (Some 60) "Zone 1" "Light";
    mkRow (Some 60) (Some 70) "Zone 2" "Moderate";
    mkRow (Some 70) (Some 80) "Zone 3" "Vigorous";
    mkRow (Some 80) (Some 90) "Zone 4" "Hard";
    mkRow (Some 90) None      "Zone 5" "Maximum" ].

(** [p] lies in the row's interval. *)
Definition in_row (r : ZoneRow) (p : float) : bool :=
  match row_lower r with Some lo => lo <=? p | None => true end
  && match row_upper r with Some hi => p <? hi | None => true end.

(** ** Vocabulary of the statements *)

(** A computation that leaves the globals as it found them. *)
Definition preserves_globals {A : Type} (m : Py A) : Prop :=
  forall g, snd (m g) = g.

(** The integers [lo, lo + 1, ..., lo + n - 1]. *)
Definition Z_range (lo : Z) (n : nat) : list Z :=
  map (fun i => (lo + Z.of_nat i)%Z) (seq 0 n).

(** The bounds of the height and weight sliders (lines 298-312). *)
Definition height_slider : list Z := Z_range 100 151.
Definition weight_slider : list Z := Z_range 30 171.

(** The BMI expression returns at the given slider values. *)
Definition bmi_returns (h w : Z) : bool :=
  match bmi (float_of_int w) (float_of_int h) script_globals with
  | (Return _, _) => true
  | (Raise _, _) => false
  end.

(** The values the widgets can deliver (lines 284-339). *)
Definition slider_input (w : WorkoutInput) : Prop :=
  (10 <= age w <= 100)%Z /\
  (100 <= height w <= 250)%Z /\
  (30 <= weight w <= 200)%Z /\
  (1 <= duration w <= 300)%Z /\
  (60 <= heart_rate w <= 220)%Z.

(** The maxima [220 - age] over the age slider. *)
Definition max_hr_slider : list Z := Z_range 120 91.

(** ** The zones table of the fourth tab (lines 626-638) *)

(** A frame built from a dict of equally long lists: the columns by name,
    in insertion order. *)
Definition DataFrame : Type := list (string * list string).

Definition zones_data : DataFrame :=
  [ ("Zone", ["Zone 1"; "Zone 2"; "Zone 3"; "Zone 4"; "Zone 5"]);
    ("Intensity", ["Light"; "Moderate"; "Vigorous"; "Hard"; "Maximum"]);
    ("HR % of Max", ["50-60%"; "60-70%"; "70-80%"; "80-90%"; "90-100%"]);
    ("Primary Benefit",
       ["Warm-up & Recovery"; "Fat Burning & Endurance"; "Aerobic Capacity";
        "Anaerobic Threshold"; "Maximum Performance"]);
    ("Cal/Min", ["5-7"; "7-10"; "10-13"; "13-16"; "16+"]) ].

(** The column under a name, if the frame has it. *)
Fixpoint frame_column (df : DataFrame) (name : string) : option (list string) :=
  match df with
  | [] => None
  | (k, col) :: rest =>
      if String.eqb k name then Some col else frame_column rest name
  end.

(** The cell of column [name] in row [i], counted from 0. *)
Definition frame_cell (df : DataFrame) (name : string) (i : nat) : option string :=
  match frame_column df name with
  | Some col => nth_error col i
  | None => None
  end.

(** ** More vocabulary *)

(** The dict of the last branch of [get_intensity_zone], by name. *)
Definition max_zone : IntensityZone :=
  {| zone := "Zone 5"; level := "Maximum"; color := "#DC2626";
     description := "Maximum effort"; range := "90-100%" |}.

(** The position of [s] in [l], or the length of [l] when it is absent. *)
Fixpoint index_of (s : string) (l : list string) : nat :=
  match l with
  | [] => 0
  | x :: rest => if String.eqb x s then 0 else S (index_of s rest)
  end.

(** The labels of the three ladders, each from its lowest branch up. *)
Definition zone_order : list string :=
  ["Rest"; "Zone 1"; "Zone 2"; "Zone 3"; "Zone 4"; "Zone 5"].
Definition tier_order : list string := ["Improvement"; "Good"; "Excellent"].
Definition bmi_order : list string := ["Underweight"; "Normal"; "Overweight"].

(** The bounds of the heart-rate and age sliders (lines 290-296, 324-330). *)
Definition heart_rate_slider : list Z := Z_range 60 161.
Definition age_slider : list Z := Z_range 10 91.

(** The percentage of line 343 at integer values, as a bare binary64. *)
Definition slider_percentage (hr a : Z) : float :=
  float_of_int hr / float_of_int (220 - a) * 100.

(** The checks run over the sliders: the percentage stays between 28.5 and
    183.4, and exceeds 100 whenever the heart rate exceeds [220 - age]. *)
Definition percentage_in_bounds (hr a : Z) : bool :=
  (28.5 <=? slider_percentage hr a) && (slider_percentage hr a <=? 183.4).

Definition percentage_over_100 (hr a : Z) : bool :=
  if (220 - a <? hr)%Z then 100 <? slider_percentage hr a
  else slider_percentage hr a <=? 100.

(** Ages beyond the slider, up to 250. *)
Definition age_range_to_250 : list Z := Z_range 0 251.

(** [220 - a] converts to a zero exactly at [a = 220]. *)
Definition max_hr_zero_at_220 (a : Z) : bool :=
  Bool.eqb (float_of_int (220 - a) =? 0) (a =? 220)%Z.

(** The BMI of line 410 at integer values, as a bare binary64. *)
Definition slider_bmi (h w : Z) : float :=
  float_of_int w / (float_of_int h / 100 * (float_of_int h / 100)).

Definition bmi_in_bounds (h w : Z) : bool :=
  (4.8 <=? slider_bmi h w) && (slider_bmi h w <=? 200).

(** * Properties *)

(** ** The order of binary64, from the specification of the primitives *)

Lemma SFcompare_swap (x y : spec_float) :
  SFcompare y x = option_map CompOpp (SFcompare x y).
Proof.
  destruct x as [sx | sx | | sx mx ex], y as [sy | sy | | sy my ey];
    simpl; try reflexivity;
    try (destruct sx; reflexivity);
    try (destruct sy; reflexivity);
    try (destruct sx, sy; reflexivity).
  assert (Hm : Pos.compare_cont Eq my mx = CompOpp (Pos.compare_cont Eq mx my))
    by (symmetry; apply (Pos.compare_cont_antisym mx my Eq)).
  destruct sx, sy; simpl; try reflexivity;
    rewrite (Z.compare_antisym ex ey), Hm;
    destruct (ex ?= ey)%Z; simpl; try reflexivity;
    destruct (Pos.compare_cont Eq mx my); reflexivity.
Qed.

Lemma SFcompare_None (x y : spec_float) :
  SFcompare x y = None -> x = S754_nan \/ y = S754_nan.
Proof.
  destruct x as [sx | sx | | sx mx ex], y as [sy | sy | | sy my ey];
    simpl; intros H; try discriminate H; auto.
Qed.

Lemma leb_true_ltb_false (x y : float) :
  (x <=? y) = true -> (y <? x) = false.
Proof.
  rewrite leb_spec, ltb_spec. unfold SFleb, SFltb.
  rewrite (SFcompare_swap (Prim2SF x) (Prim2SF y)).
  destruct (SFcompare (Prim2SF x) (Prim2SF y)) as [[ | | ] | ];
    simpl; intros H; try reflexivity; discriminate H.
Qed.


(** Every comparison with a NaN is false, so a true one excludes it. *)
Lemma leb_true_not_nan_r (x y : float) :
  (x <=? y) = true -> Prim2SF y <> S754_nan.
Proof.
  rewrite leb_spec. unfold SFleb. intros H E. rewrite E in H.
  destruct (Prim2SF x); discriminate H.
Qed.

(** Two values that are not NaN are comparable. *)
Lemma ltb_false_leb_true (x y : float) :
  Prim2SF x <> S754_nan -> Prim2SF y <> S754_nan ->
  (x <? y) = false -> (y <=? x) = true.
Proof.
  intros Hx Hy. rewrite leb_spec, ltb_spec. unfold SFleb, SFltb.
  rewrite (SFcompare_swap (Prim2SF x) (Prim2SF y)).
  destruct (SFcompare (Prim2SF x) (Prim2SF y)) as [[ | | ] | ] eqn:E;
    simpl; intros H; try reflexivity; try discriminate H.
  destruct (SFcompare_None _ _ E); contradiction.
Qed.

(** The two zeros are the only values equal to [0]. *)
Lemma eqb_zero_cases (x : float) :
  (x =? 0) = true -> x = 0 \/ x = (-0).
Proof.
  rewrite eqb_spec. unfold SFeqb.
  change (Prim2SF 0) with (S754_zero false).
  destruct (Prim2SF x) as [s | s | | s m e] eqn:E; simpl;
    try discriminate; try (destruct s; discriminate).
  intros _. rewrite <- (SF2Prim_Prim2SF x), E.
  destruct s; [right | left]; reflexivity.
Qed.

Lemma SFltb_trans (x y z : spec_float) :
  SFltb x y = true -> SFltb y z = true -> SFltb x z = true.
Proof.
  unfold SFltb.
  destruct x as [sx | sx | | sx mx ex], y as [sy | sy | | sy my ey],
    z as [sz | sz | | sz mz ez]; simpl;
    try discriminate; try reflexivity;
    try (destruct sx; simpl; try discriminate; try reflexivity);
    try (destruct sy; simpl; try discriminate; try reflexivity);
    try (destruct sz; simpl; try discriminate; try reflexivity).
  all: change (Pos.compare_cont Eq) with Pos.compare.
  all: destruct (Z.compare_spec ex ey), (Z.compare_spec ey ez),
      (Z.compare_spec ex ez); simpl; try discriminate; try reflexivity; try lia.
  all: destruct (Pos.compare_spec mx my), (Pos.compare_spec my mz),
      (Pos.compare_spec mx mz); simpl; try discriminate; try reflexivity; try lia.
Qed.

Lemma ltb_trans (x y z : float) :
  (x <? y) = true -> (y <? z) = true -> (x <? z) = true.
Proof. rewrite !ltb_spec. apply SFltb_trans. Qed.

(** [==] against a finite non-zero constant holds for that value only. *)
Lemma eqb_finite_eq (x c : float) (s : bool) (m : positive) (e : Z) :
  Prim2SF c = S754_finite s m e -> (x =? c) = true -> x = c.
Proof.
  intros Hc. rewrite eqb_spec. unfold SFeqb. rewrite Hc. intros H.
  apply Prim2SF_inj. rewrite Hc.
  destruct (Prim2SF x) as [sx | sx | | sx mx ex]; simpl in H;
    try discriminate H;
    try (destruct s; discriminate H); try (destruct sx; discriminate H).
  change (Pos.compare_cont Eq) with Pos.compare in H.
  revert H.
  destruct sx, s; try discriminate;
    destruct (Z.compare_spec ex e); try discriminate;
    destruct (Pos.compare_spec mx m); try discriminate;
    intros _; subst; reflexivity.
Qed.

(** ** Deciding the ladders

    [float_order] closes a goal whose hypotheses compare one value with the
    thresholds inconsistently: it turns every [c <=? p] into the failure of
    [p <? c], spreads every [p <? c] to the larger thresholds, and looks for
    a clash. *)

Ltac float_order_le :=
  repeat match goal with
  | H : (?c <=? ?p) = true |- _ =>
      apply leb_true_ltb_false in H
  end.

Ltac float_order :=
  exfalso; float_order_le;
  try congruence;
  repeat match goal with
  | H : (?p <? ?c) = true, H' : (?p <? ?c') = false |- _ =>
      assert ((p <? c') = true)
        by (apply (ltb_trans p c c' H); reflexivity);
      congruence
  end.

(** ** Running the monad *)

Lemma py_truediv_nonzero (g : Globals) (a b : float) :
  (b =? 0) = false -> py_truediv a b g = (Return (a / b), g).
Proof. intros H. unfold py_truediv. rewrite H. reflexivity. Qed.

Lemma py_truediv_zero (g : Globals) (a b : float) :
  (b =? 0) = true -> py_truediv a b g = (Raise ZeroDivisionError, g).
Proof. intros H. unfold py_truediv. rewrite H. reflexivity. Qed.

(** ** The zone ladder *)

(** C1.  For a non-zero [max_hr] the percentage is
    [heart_rate / max_hr * 100], and [get_intensity_zone] returns the zone
    of the ladder: Rest below 50, Zone 1 on [50, 60), Zone 2 on [60, 70),
    Zone 3 on [70, 80), Zone 4 on [80, 90), Zone 5 from 90 on; a percentage
    equal to 60 is in Zone 2. *)
Theorem get_intensity_zone_ladder (g : Globals) (heart_rate max_hr : float) :
  (max_hr =? 0) = false ->
  let percentage := heart_rate / max_hr * 100 in
  hr_percentage heart_rate max_hr g = (Return percentage, g) /\
  exists z,
    get_intensity_zone heart_rate max_hr g = (Return z, g) /\
    ((percentage <? 50) = true -> zone z = "Rest"%string) /\
    ((50 <=? percentage) = true -> (percentage <? 60) = true ->
       zone z = "Zone 1"%string) /\
    ((60 <=? percentage) = true -> (percentage <? 70) = true ->
       zone z = "Zone 2"%string) /\
    ((70 <=? percentage) = true -> (percentage <? 80) = true ->
       zone z = "Zone 3"%string) /\
    ((80 <=? percentage) = true -> (percentage <? 90) = true ->
       zone z = "Zone 4"%string) /\
    ((90 <=? percentage) = true -> zone z = "Zone 5"%string) /\
    ((percentage =? 60) = true ->
       zone z = "Zone 2"%string /\ zone z <> "Zone 1"%string).
Proof.
  intros Hnz percentage.
  unfold hr_percentage, get_intensity_zone, bind.
  rewrite (py_truediv_nonzero g heart_rate max_hr Hnz).
  fold percentage. split; [reflexivity |].
  assert (H60 : (percentage =? 60) = true -> percentage = 60)
    by (apply (eqb_finite_eq percentage 60 false 8444249301319680 (-47));
        reflexivity).
  generalize dependent percentage. intros p H60.
  destruct (p <? 50) eqn:E50;
    [| destruct (p <? 60) eqn:E60;
       [| destruct (p <? 70) eqn:E70;
          [| destruct (p <? 80) eqn:E80;
             [| destruct (p <? 90) eqn:E90 ]]]];
    (eexists; split; [reflexivity |]); simpl zone;
    repeat split; intros; try reflexivity; try discriminate;
    try (rewrite (H60 ltac:(assumption)) in *; discriminate);
    float_order.
Qed.

Lemma get_intensity_zone_ladder_witness :
  (195 =? 0) = false /\
  exists z,
    get_intensity_zone 117 195 script_globals = (Return z, script_globals) /\
    zone z = "Zone 2"%string /\ zone z <> "Zone 1"%string.
Proof.
  split; [reflexivity |].
  destruct (get_intensity_zone_ladder script_globals 117 195 eq_refl)
    as [_ [z [Hz [_ [_ [_ [_ [_ [_ H]]]]]]]]].
  exists z. split; [exact Hz | apply H; reflexivity].
Defined.

(** C9.  With a non-zero [max_hr], a percentage below 50 - and so every
    negative percentage, whether from a negative heart rate or from a
    negative maximum - makes [get_intensity_zone] return, without raising,
    the dict of the Rest zone. *)
Theorem get_intensity_zone_negative_rest
    (g : Globals) (heart_rate max_hr : float) :
  (max_hr =? 0) = false ->
  let percentage := heart_rate / max_hr * 100 in
  ((percentage <? 50) = true ->
     get_intensity_zone heart_rate max_hr g = (Return rest_zone, g)) /\
  ((percentage <? 0) = true ->
     (percentage <? 50) = true /\
     get_intensity_zone heart_rate max_hr g = (Return rest_zone, g)).
Proof.
  intros Hnz percentage.
  assert (Hrest : (percentage <? 50) = true ->
            get_intensity_zone heart_rate max_hr g = (Return rest_zone, g)).
  { intros Hlt. unfold get_intensity_zone, bind.
    rewrite (py_truediv_nonzero g heart_rate max_hr Hnz).
    fold percentage. rewrite Hlt. reflexivity. }
  split; [exact Hrest |].
  intros Hneg.
  assert (Hlt : (percentage <? 50) = true)
    by (apply (ltb_trans percentage 0 50 Hneg); reflexivity).
  split; [exact Hlt | exact (Hrest Hlt)].
Qed.

Lemma get_intensity_zone_negative_rest_witness :
  ((195 =? 0) = false /\ (-60 / 195 * 100 <? 0) = true /\
   get_intensity_zone (-60) 195 script_globals
     = (Return rest_zone, script_globals)) /\
  (calculate_max_heart_rate 225 script_globals
     = (Return (-5)%Z, script_globals) /\
   (float_of_int (-5) =? 0) = false /\
   (120 / float_of_int (-5) * 100 <? 0) = true /\
   get_intensity_zone 120 (float_of_int (-5)) script_globals
     = (Return rest_zone, script_globals)).
Proof.
  split.
  - split; [reflexivity | split; [reflexivity |]].
    apply (get_intensity_zone_negative_rest script_globals (-60) 195 eq_refl).
    reflexivity.
  - split; [reflexivity | split; [reflexivity | split; [reflexivity |]]].
    apply (get_intensity_zone_negative_rest
             script_globals 120 (float_of_int (-5)) eq_refl).
    reflexivity.
Defined.

(** ** The ladder against the table of the specification *)

Lemma ltb_zero_eqb_false (x : float) : (0 <? x) = true -> (x =? 0) = false.
Proof.
  rewrite ltb_spec, eqb_spec. unfold SFltb, SFeqb.
  rewrite (SFcompare_swap (Prim2SF 0) (Prim2SF x)).
  destruct (SFcompare (Prim2SF 0) (Prim2SF x)) as [[ | | ] | ];
    simpl; intros H; try reflexivity; discriminate H.
Qed.

Lemma threshold_leb (c p : float) :
  (c =? c) = true -> (0 <=? p) = true -> (p <? c) = false -> (c <=? p) = true.
Proof.
  intros Hc Hp. apply ltb_false_leb_true.
  - exact (leb_true_not_nan_r 0 p Hp).
  - intros E. rewrite eqb_spec in Hc. unfold SFeqb in Hc. rewrite E in Hc.
    discriminate Hc.
Qed.

(** Two rows of the table that hold the same percentage are one row. *)
Lemma spec_zone_table_disjoint (p : float) (r r' : ZoneRow) :
  In r spec_zone_table -> In r' spec_zone_table ->
  in_row r p = true -> in_row r' p = true -> r = r'.
Proof.
  unfold spec_zone_table. simpl. intros Hr Hr'.
  repeat (destruct Hr as [<- | Hr]; [| try contradiction ]);
    repeat (destruct Hr' as [<- | Hr']; [| try contradiction ]);
    try reflexivity; unfold in_row; simpl;
    rewrite ?andb_true_r; intros H1 H2;
    repeat match goal with
    | H : (_ && _)%bool = true |- _ => apply andb_prop in H; destruct H
    end; float_order.
Qed.

(** Every percentage that is not a NaN lies in the row the ladder picks. *)
Lemma spec_zone_table_covers (p : float) :
  (0 <=? p) = true ->
  exists r, In r spec_zone_table /\ in_row r p = true.
Proof.
  intros Hp.
  destruct (p <? 50) eqn:E50;
    [ exists (mkRow None (Some 50) "Rest" "Very Light")
    | destruct (p <? 60) eqn:E60;
      [ exists (mkRow (Some 50) (Some 60) "Zone 1" "Light")
      | destruct (p <? 70) eqn:E70;
        [ exists (mkRow (Some 60) (Some 70) "Zone 2" "Moderate")
        | destruct (p <? 80) eqn:E80;
          [ exists (mkRow (Some 70) (Some 80) "Zone 3" "Vigorous")
          | destruct (p <? 90) eqn:E90;
            [ exists (mkRow (Some 80) (Some 90) "Zone 4" "Hard")
            | exists (mkRow (Some 90) None "Zone 5" "Maximum") ]]]]];
    (split; [simpl; tauto |]); unfold in_row; simpl;
    rewrite ?andb_true_r;
    repeat match goal with
    | |- (_ && _)%bool = true => apply andb_true_intro; split
    | |- (_ <=? p) = true => apply threshold_leb; [reflexivity | exact Hp |]
    end; assumption.
Qed.

(** The row of the table that carries a zone name is determined by it. *)
Lemma spec_zone_table_names (r r' : ZoneRow) :
  In r spec_zone_table -> In r' spec_zone_table ->
  row_zone r = row_zone r' -> r = r'.
Proof.
  unfold spec_zone_table. simpl. intros Hr Hr'.
  repeat (destruct Hr as [<- | Hr]; [| try contradiction ]);
    repeat (destruct Hr' as [<- | Hr']; [| try contradiction ]);
    simpl; intros H; try reflexivity; discriminate H.
Qed.

(** C2.  For a positive [max_hr] and any [heart_rate],
    [get_intensity_zone] returns, and what it returns is one zone of the
    six-row table: one row, and no other, carries its name and level, and
    that row holds the percentage whenever the percentage is at least 0.
    The rows partition the axis from 0 on: every such percentage lies in
    one row and in no other. *)
Theorem get_intensity_zone_partition :
  (forall (g : Globals) (heart_rate max_hr : float),
     (0 <? max_hr) = true ->
     exists z r,
       get_intensity_zone heart_rate max_hr g = (Return z, g) /\
       In r spec_zone_table /\
       zone z = row_zone r /\ level z = row_level r /\
       (forall r', In r' spec_zone_table -> row_zone r' = zone z -> r' = r) /\
       (let percentage := heart_rate / max_hr * 100 in
        (0 <=? percentage) = true -> in_row r percentage = true)) /\
  (forall p : float,
     (0 <=? p) = true ->
     exists r,
       In r spec_zone_table /\ in_row r p = true /\
       forall r', In r' spec_zone_table -> in_row r' p = true -> r' = r).
Proof.
  split.
  - intros g heart_rate max_hr Hpos.
    pose proof (ltb_zero_eqb_false max_hr Hpos) as Hnz.
    unfold get_intensity_zone, bind.
    rewrite (py_truediv_nonzero g heart_rate max_hr Hnz).
    set (p := heart_rate / max_hr * 100).
    destruct (p <? 50) eqn:E50;
      [ exists rest_zone, (mkRow None (Some 50) "Rest" "Very Light")
      | destruct (p <? 60) eqn:E60;
        [ eexists; exists (mkRow (Some 50) (Some 60) "Zone 1" "Light")
        | destruct (p <? 70) eqn:E70;
          [ eexists; exists (mkRow (Some 60) (Some 70) "Zone 2" "Moderate")
          | destruct (p <? 80) eqn:E80;
            [ eexists; exists (mkRow (Some 70) (Some 80) "Zone 3" "Vigorous")
            | destruct (p <? 90) eqn:E90;
              [ eexists; exists (mkRow (Some 80) (Some 90) "Zone 4" "Hard")
              | eexists; exists (mkRow (Some 90) None "Zone 5" "Maximum") ]]]]];
      (split; [reflexivity |]);
      match goal with
      | |- In ?r _ /\ _ =>
          assert (Hr : In r spec_zone_table) by (simpl; tauto)
      end;
      (split; [exact Hr |]);
      (split; [reflexivity |]); (split; [reflexivity |]);
      (split;
       [ intros r' Hr' Hname;
         apply (spec_zone_table_names r' _ Hr' Hr); exact Hname
       | cbv zeta; intros Hp; unfold in_row; simpl;
         rewrite ?andb_true_r;
         repeat match goal with
         | |- (_ && _)%bool = true => apply andb_true_intro; split
         | |- (_ <=? _) = true =>
             apply threshold_leb; [reflexivity | exact Hp |]
         end; assumption ]).
  - intros p Hp.
    destruct (spec_zone_table_covers p Hp) as [r [Hr Hin]].
    exists r. split; [exact Hr |]. split; [exact Hin |].
    intros r' Hr' Hin'.
    exact (spec_zone_table_disjoint p r' r Hr' Hr Hin' Hin).
Qed.

Lemma get_intensity_zone_partition_witness :
  ((0 <? 195) = true /\
   exists z r,
     get_intensity_zone 140 195 script_globals = (Return z, script_globals) /\
     In r spec_zone_table /\ zone z = row_zone r) /\
  ((0 <=? 60) = true /\
   exists r, In r spec_zone_table /\ in_row r 60 = true).
Proof.
  split; (split; [reflexivity |]).
  - destruct (proj1 get_intensity_zone_partition script_globals 140 195 eq_refl)
      as [z [r [Hz [Hr [Hn _]]]]].
    exists z, r. auto.
  - destruct (proj2 get_intensity_zone_partition 60 eq_refl)
      as [r [Hr [Hin _]]].
    exists r. auto.
Defined.

(** ** Maximum heart rate *)

(** C6.  For every integer [age], [calculate_max_heart_rate] returns
    [220 - age]; at 25 this is 195. *)
Theorem calculate_max_heart_rate_value (g : Globals) (age : Z) :
  calculate_max_heart_rate age g = (Return (220 - age)%Z, g) /\
  calculate_max_heart_rate 25 g = (Return 195%Z, g).
Proof. split; reflexivity. Qed.

(** C7 does not hold of the code.  No age is rejected: at 0 the function returns
    220, at 220 it returns 0, beyond 220 a negative number. *)
Lemma calculate_max_heart_rate_unguarded :
  calculate_max_heart_rate 0 script_globals = (Return 220%Z, script_globals) /\
  calculate_max_heart_rate (-5) script_globals
    = (Return 225%Z, script_globals) /\
  calculate_max_heart_rate 220 script_globals
    = (Return 0%Z, script_globals) /\
  calculate_max_heart_rate 230 script_globals
    = (Return (-10)%Z, script_globals).
Proof. repeat split. Qed.

(** C7, in the form that holds of the code.  For an age at most 0 or at least 220 the function still
    returns [220 - age], without raising: a value of at least 220 in the
    first case and at most 0 in the second. *)
Theorem calculate_max_heart_rate_out_of_range (g : Globals) (age : Z) :
  (age <= 0 \/ 220 <= age)%Z ->
  exists v : Z,
    calculate_max_heart_rate age g = (Return v, g) /\
    v = (220 - age)%Z /\
    ((age <= 0)%Z -> (220 <= v)%Z) /\
    ((220 <= age)%Z -> (v <= 0)%Z).
Proof.
  intros _. exists (220 - age)%Z.
  split; [reflexivity |]. split; [reflexivity |]. split; intros H; lia.
Qed.

Lemma calculate_max_heart_rate_out_of_range_witness :
  (0 <= 0 \/ 220 <= 0)%Z /\
  exists v : Z,
    calculate_max_heart_rate 0 script_globals = (Return v, script_globals) /\
    (220 <= v)%Z.
Proof.
  assert (H : (0 <= 0 \/ 220 <= 0)%Z) by (left; lia).
  split; [exact H |].
  destruct (calculate_max_heart_rate_out_of_range script_globals 0 H)
    as [v [Hv [_ [Hlo _]]]].
  exists v. split; [exact Hv | apply Hlo; lia].
Defined.

(** ** Divisors that are zero or negative *)

(** C3 does not hold of the code.  A zero or negative [duration] is not
    rejected:
    the burn rate is the IEEE quotient, a NaN for 0 / 0, an infinity for
    300 / 0, a negative rate for a negative duration.  Neither is a negative
    [height]: the BMI is computed from its square. *)
Lemma nonpositive_divisor_not_rejected :
  cal_per_min 0 0 script_globals = (Return nan, script_globals) /\
  cal_per_min 300 0 script_globals = (Return infinity, script_globals) /\
  cal_per_min 300 (-30) script_globals = (Return (-10), script_globals) /\
  bmi 70 (-170) script_globals
    = (Return 24.221453287197235, script_globals).
Proof. repeat split. Qed.

(** C3, in the form that holds of the code.  [get_intensity_zone] raises [ZeroDivisionError] when
    [max_hr] is zero and the BMI expression raises it when [height] is
    zero, in both cases with no value produced; the burn rate is never
    rejected and is the IEEE quotient of prediction and duration, whatever
    the duration. *)
Theorem zero_divisor_outcomes (g : Globals) :
  (forall heart_rate max_hr : float,
     (max_hr =? 0) = true ->
     get_intensity_zone heart_rate max_hr g = (Raise ZeroDivisionError, g)) /\
  (forall weight height : float,
     (height =? 0) = true ->
     bmi weight height g = (Raise ZeroDivisionError, g)) /\
  (forall prediction duration : float,
     cal_per_min prediction duration g = (Return (prediction / duration), g)).
Proof.
  split; [| split].
  - intros heart_rate max_hr Hz.
    unfold get_intensity_zone, bind.
    rewrite (py_truediv_zero g heart_rate max_hr Hz). reflexivity.
  - intros weight height Hz.
    destruct (eqb_zero_cases height Hz) as [-> | ->]; reflexivity.
  - intros prediction duration. reflexivity.
Qed.

Lemma zero_divisor_outcomes_witness :
  ((0 =? 0) = true /\
   get_intensity_zone 140 0 script_globals
     = (Raise ZeroDivisionError, script_globals)) /\
  ((0 =? 0) = true /\
   bmi 70 0 script_globals = (Raise ZeroDivisionError, script_globals)) /\
  cal_per_min 300 0 script_globals = (Return (300 / 0), script_globals).
Proof.
  destruct (zero_divisor_outcomes script_globals) as [Hzone [Hbmi Hcpm]].
  split; [| split].
  - split; [reflexivity | apply Hzone; reflexivity].
  - split; [reflexivity | apply Hbmi; reflexivity].
  - apply Hcpm.
Defined.

(** ** Recommendation tiers *)

(** C4.  Under the script's globals the recommendation always returns, and
    its title is "Excellent" above 10, "Good" above 7 and up to 10,
    "Improvement" up to 7.  A prediction of 300 over 30 minutes is a burn
    rate of exactly 10 and is "Good". *)
Theorem recommendation_tiers (c : float) :
  (exists r,
     recommendation c script_globals = (Return r, script_globals) /\
     ((10 <? c) = true -> rec_title r = "Excellent"%string) /\
     ((7 <? c) = true -> (c <=? 10) = true -> rec_title r = "Good"%string) /\
     ((c <=? 7) = true -> rec_title r = "Improvement"%string)) /\
  (exists report,
     evaluate 300 30 140 195 170 70 script_globals
       = (Return report, script_globals) /\
     report_cal_per_min report = 10 /\
     rec_title (report_recommendation report) = "Good"%string).
Proof.
  split.
  - unfold recommendation.
    destruct (10 <? c) eqn:E10; [| destruct (7 <? c) eqn:E7 ];
      (eexists; split; [reflexivity |]); simpl rec_title;
      repeat split; intros; try reflexivity; exfalso;
      repeat match goal with
      | H : (_ <=? _) = true |- _ => apply leb_true_ltb_false in H
      end;
      try congruence.
    assert ((7 <? c) = true)
      by (apply (ltb_trans 7 10 c); [reflexivity | assumption]).
    congruence.
  - eexists. split; [vm_compute; reflexivity |]. split; reflexivity.
Qed.

Lemma recommendation_tiers_witness :
  (7 <? 10) = true /\ (10 <=? 10) = true /\
  exists r,
    recommendation 10 script_globals = (Return r, script_globals) /\
    rec_title r = "Good"%string.
Proof.
  split; [reflexivity |]. split; [reflexivity |].
  destruct (proj1 (recommendation_tiers 10)) as [r [Hr [_ [Hgood _]]]].
  exists r. split; [exact Hr | apply Hgood; reflexivity].
Defined.

(** ** Body mass index *)

(** The BMI expression neither reads nor writes the globals. *)
Lemma bmi_globals (g g' : Globals) (weight height : float) :
  bmi weight height g = (fst (bmi weight height g'), g).
Proof.
  cbv [bmi bind py_truediv py_pow2 ret raise].
  change (100 =? 0) with false. cbv iota beta.
  destruct (is_finite (height / 100)
            && is_infinity (height / 100 * (height / 100)))%bool;
    [reflexivity |].
  destruct (height / 100 * (height / 100) =? 0); reflexivity.
Qed.

(** In the model, where the square is the rounded product, the BMI
    expression raises or returns the value of the formula. *)
Lemma bmi_formula (g : Globals) (weight height : float) :
  bmi weight height g
    = (Return (weight / (height / 100 * (height / 100))), g) \/
  exists e, bmi weight height g = (Raise e, g).
Proof.
  cbv [bmi bind py_truediv py_pow2 ret raise].
  change (100 =? 0) with false. cbv iota beta.
  destruct (is_finite (height / 100)
            && is_infinity (height / 100 * (height / 100)))%bool;
    [right; eexists; reflexivity |].
  destruct (height / 100 * (height / 100) =? 0);
    [right; eexists; reflexivity | left; reflexivity].
Qed.

Lemma In_Z_range (lo : Z) (n : nat) (z : Z) :
  (lo <= z < lo + Z.of_nat n)%Z -> In z (Z_range lo n).
Proof.
  intros H. unfold Z_range. apply in_map_iff.
  exists (Z.to_nat (z - lo)). split; [lia |].
  apply in_seq. lia.
Qed.

Lemma bmi_returns_on_sliders :
  forallb (fun h => forallb (bmi_returns h) weight_slider) height_slider = true.
Proof. vm_compute. reflexivity. Qed.

(** On the sliders' values the BMI expression returns the formula's value. *)
Lemma bmi_sliders (g : Globals) (h w : Z) :
  (100 <= h <= 250)%Z -> (30 <= w <= 200)%Z ->
  bmi (float_of_int w) (float_of_int h) g
    = (Return (float_of_int w
                 / (float_of_int h / 100 * (float_of_int h / 100))), g).
Proof.
  intros Hh Hw.
  assert (Hin_h : In h height_slider) by (apply In_Z_range; simpl Z.of_nat; lia).
  assert (Hin_w : In w weight_slider) by (apply In_Z_range; simpl Z.of_nat; lia).
  pose proof bmi_returns_on_sliders as Hall.
  rewrite forallb_forall in Hall. specialize (Hall h Hin_h).
  rewrite forallb_forall in Hall. specialize (Hall w Hin_w).
  unfold bmi_returns in Hall.
  destruct (bmi_formula g (float_of_int w) (float_of_int h)) as [Hf | [e He]];
    [exact Hf |].
  rewrite (bmi_globals script_globals g) in Hall. rewrite He in Hall.
  discriminate Hall.
Qed.



(** ** The BMI expression leaves the globals alone *)

Lemma preserves_ret {A : Type} (a : A) : preserves_globals (ret a).
Proof. intros g. reflexivity. Qed.

Lemma preserves_raise {A : Type} (e : exn) : preserves_globals (@raise A e).
Proof. intros g. reflexivity. Qed.

Lemma preserves_bind {A B : Type} (m : Py A) (k : A -> Py B) :
  preserves_globals m -> (forall a, preserves_globals (k a)) ->
  preserves_globals (bind m k).
Proof.
  intros Hm Hk g. unfold bind. specialize (Hm g).
  destruct (m g) as [[a | e] g1]; simpl in Hm; subst g1;
    [apply Hk | reflexivity].
Qed.

Lemma preserves_py_truediv (a b : float) : preserves_globals (py_truediv a b).
Proof.
  unfold py_truediv. destruct (b =? 0);
    [apply preserves_raise | apply preserves_ret].
Qed.

Lemma preserves_py_pow2 (x : float) : preserves_globals (py_pow2 x).
Proof.
  unfold py_pow2. destruct (is_finite x && is_infinity (x * x))%bool;
    [apply preserves_raise | apply preserves_ret].
Qed.

Lemma preserves_bmi (weight height : float) :
  preserves_globals (bmi weight height).
Proof.
  unfold bmi.
  apply preserves_bind; [apply preserves_py_truediv | intros m].
  apply preserves_bind; [apply preserves_py_pow2 | intros sq].
  apply preserves_py_truediv.
Qed.

(** ** The gender feature *)

(** C10.  The prediction is the model applied to [input_data], whose
    [Gender] is 1 for 'Male', 0 for 'Female', and never anything but 0 or
    1; replacing the model by one that agrees with it on the frames whose
    [Gender] is 0 or 1 changes nothing in the handler's run. *)
Theorem gender_feature_encoding
    (model_predict : InputData -> float) (w : WorkoutInput) :
  prediction model_predict w = model_predict (input_data w) /\
  Gender (input_data w) = gender_encoded (gender w) /\
  (gender w = "Male"%string -> Gender (input_data w) = 1%Z) /\
  (gender w = "Female"%string -> Gender (input_data w) = 0%Z) /\
  (Gender (input_data w) = 0%Z \/ Gender (input_data w) = 1%Z) /\
  (forall other_predict : InputData -> float,
     (forall f, Gender f = 0%Z \/ Gender f = 1%Z ->
                other_predict f = model_predict f) ->
     analyze other_predict w = analyze model_predict w).
Proof.
  assert (Hbit : Gender (input_data w) = 0%Z \/ Gender (input_data w) = 1%Z).
  { simpl. unfold gender_encoded.
    destruct (String.eqb (gender w) "Male"); [right | left]; reflexivity. }
  split; [reflexivity |]. split; [reflexivity |].
  split; [| split; [| split; [exact Hbit |]]].
  - intros H. simpl. rewrite H. reflexivity.
  - intros H. simpl. rewrite H. reflexivity.
  - intros other_predict Hagree.
    unfold analyze, prediction. rewrite (Hagree (input_data w) Hbit).
    reflexivity.
Qed.

Lemma gender_feature_encoding_witness :
  let model := fun f : InputData => 231.5 in
  let male := mkWorkoutInput "Male" 25 170 70 30 120 37.5 in
  let female := mkWorkoutInput "Female" 25 170 70 30 120 37.5 in
  (gender male = "Male"%string /\ Gender (input_data male) = 1%Z) /\
  (gender female = "Female"%string /\ Gender (input_data female) = 0%Z).
Proof.
  intros model male female. split.
  - split; [reflexivity |].
    apply (gender_feature_encoding model male). reflexivity.
  - split; [reflexivity |].
    apply (gender_feature_encoding model female). reflexivity.
Defined.

(** ** The handler on the sliders' values *)

Lemma max_hr_slider_nonzero :
  forallb (fun m => negb (float_of_int m =? 0)) max_hr_slider = true.
Proof. vm_compute. reflexivity. Qed.

Lemma get_intensity_zone_returns (g : Globals) (heart_rate max_hr : float) :
  (max_hr =? 0) = false ->
  exists z, get_intensity_zone heart_rate max_hr g = (Return z, g).
Proof.
  intros Hnz. unfold get_intensity_zone, bind.
  rewrite (py_truediv_nonzero g heart_rate max_hr Hnz).
  repeat match goal with
  | |- context [if ?c then _ else _] => destruct c
  end; eexists; reflexivity.
Qed.

Lemma recommendation_returns (c : float) :
  exists r, recommendation c script_globals = (Return r, script_globals).
Proof.
  unfold recommendation.
  destruct (10 <? c); [| destruct (7 <? c)]; eexists; reflexivity.
Qed.

(** X1.  Within the sliders' bounds no statement of the handler raises:
    the maximum heart rate is not zero, the square of the height neither
    overflows nor vanishes, and the colour of the tier is bound; whatever
    the model predicts, the handler returns a report and leaves the globals
    as they were. *)
Lemma analyze_returns_on_sliders
    (model_predict : InputData -> float) (w : WorkoutInput) :
  slider_input w ->
  exists report,
    analyze model_predict w script_globals = (Return report, script_globals).
Proof.
  intros (Hage & Hh & Hw & _ & _).
  assert (Hnz : (float_of_int (220 - age w) =? 0) = false).
  { pose proof max_hr_slider_nonzero as Hall.
    rewrite forallb_forall in Hall.
    apply negb_true_iff, Hall, In_Z_range.
    change (Z.of_nat 91) with 91%Z. lia. }
  unfold analyze, calculate_max_heart_rate, hr_percentage, evaluate,
    cal_per_min.
  cbv [bind ret].
  rewrite (py_truediv_nonzero _ _ _ Hnz).
  destruct (get_intensity_zone_returns script_globals
              (float_of_int (heart_rate w)) (float_of_int (220 - age w)) Hnz)
    as [z ->].
  rewrite (bmi_sliders script_globals (height w) (weight w) Hh Hw).
  destruct (recommendation_returns
              (np_truediv (prediction model_predict w)
                          (float_of_int (duration w)))) as [r ->].
  eexists. reflexivity.
Qed.

(** * Further properties of the code *)

(** ** More of the order of binary64 *)

Ltac sf_order_cases x y z :=
  destruct x as [? | ? | | ? ?mx ?ex], y as [? | ? | | ? ?my ?ey],
    z as [? | ? | | ? ?mz ?ez]; simpl;
  repeat match goal with s : bool |- _ => destruct s end; simpl;
  try discriminate; try reflexivity;
  change (Pos.compare_cont Eq) with Pos.compare;
  repeat match goal with
  | |- context [(?a ?= ?b)%Z] => destruct (Z.compare_spec a b); simpl
  end;
  try discriminate; try reflexivity; try lia;
  repeat match goal with
  | |- context [(?a ?= ?b)%positive] => destruct (Pos.compare_spec a b); simpl
  end;
  try discriminate; try reflexivity; try lia.

Lemma SFleb_ltb_trans (x y z : spec_float) :
  SFleb x y = true -> SFltb y z = true -> SFltb x z = true.
Proof. unfold SFleb, SFltb. sf_order_cases x y z. Qed.

Lemma SFltb_leb_trans (x y z : spec_float) :
  SFltb x y = true -> SFleb y z = true -> SFltb x z = true.
Proof. unfold SFleb, SFltb. sf_order_cases x y z. Qed.

Lemma SFleb_trans (x y z : spec_float) :
  SFleb x y = true -> SFleb y z = true -> SFleb x z = true.
Proof. unfold SFleb. sf_order_cases x y z. Qed.

Lemma leb_ltb_trans (x y z : float) :
  (x <=? y) = true -> (y <? z) = true -> (x <? z) = true.
Proof. rewrite leb_spec, !ltb_spec. apply SFleb_ltb_trans. Qed.

Lemma ltb_leb_trans (x y z : float) :
  (x <? y) = true -> (y <=? z) = true -> (x <? z) = true.
Proof. rewrite leb_spec, !ltb_spec. apply SFltb_leb_trans. Qed.

Lemma leb_trans (x y z : float) :
  (x <=? y) = true -> (y <=? z) = true -> (x <=? z) = true.
Proof. rewrite !leb_spec. apply SFleb_trans. Qed.

Lemma SFcompare_refl (x : spec_float) :
  x <> S754_nan -> SFcompare x x = Some Eq.
Proof.
  destruct x as [s | s | | s m e]; simpl; intros H;
    try (destruct s; reflexivity); [contradiction |].
  rewrite Z.compare_refl.
  change (Pos.compare_cont Eq m m) with (Pos.compare m m).
  rewrite Pos.compare_refl. destruct s; reflexivity.
Qed.

(** [x == x] fails for a NaN and for nothing else. *)
Lemma eqb_refl_false_nan (x : float) :
  (x =? x) = false -> Prim2SF x = S754_nan.
Proof.
  rewrite eqb_spec. unfold SFeqb. intros H.
  destruct (Prim2SF x) as [s | s | | s m e] eqn:E; try reflexivity;
    rewrite SFcompare_refl in H by discriminate; discriminate H.
Qed.

Lemma eqb_refl_true_not_nan (x : float) :
  (x =? x) = true -> Prim2SF x <> S754_nan.
Proof.
  rewrite eqb_spec. unfold SFeqb. intros H E. rewrite E in H.
  discriminate H.
Qed.

Lemma ltb_true_not_nan_l (x y : float) :
  (x <? y) = true -> Prim2SF x <> S754_nan.
Proof.
  rewrite ltb_spec. unfold SFltb. intros H E. rewrite E in H.
  discriminate H.
Qed.

Lemma ltb_true_not_nan_r (x y : float) :
  (x <? y) = true -> Prim2SF y <> S754_nan.
Proof.
  rewrite ltb_spec. unfold SFltb. intros H E. rewrite E in H.
  destruct (Prim2SF x); discriminate H.
Qed.

(** Every comparison with a NaN is false. *)
Lemma nan_compares_false (x c : float) :
  Prim2SF x = S754_nan ->
  (x <? c) = false /\ (c <? x) = false /\
  (x <=? c) = false /\ (c <=? x) = false.
Proof.
  intros E. rewrite !ltb_spec, !leb_spec. unfold SFltb, SFleb. rewrite E.
  destruct (Prim2SF c); repeat split; reflexivity.
Qed.

(** Below a threshold [c'] and not below [c]: at least [c]. *)
Lemma between_thresholds (c c' p : float) :
  (c =? c) = true -> (p <? c') = true -> (p <? c) = false ->
  (c <=? p) = true.
Proof.
  intros Hc Hlt. apply ltb_false_leb_true.
  - exact (ltb_true_not_nan_l p c' Hlt).
  - exact (eqb_refl_true_not_nan c Hc).
Qed.

Lemma analyze_returns_on_sliders_witness :
  let model := fun f : InputData => 231.5 in
  let w := mkWorkoutInput "Female" 100 100 200 1 220 42 in
  slider_input w /\
  exists report,
    analyze model w script_globals = (Return report, script_globals).
Proof.
  intros model w.
  assert (H : slider_input w) by (unfold slider_input; simpl; lia).
  split; [exact H | exact (analyze_returns_on_sliders model w H)].
Defined.

(** ** Reading the zone back from the label *)

(** X2.  What [get_intensity_zone] returns tells where the percentage is:
    it returns only for a non-zero [max_hr], with the globals untouched, and
    then "Rest" means below 50, "Zone 1" to "Zone 4" mean the half-open
    intervals from 50, 60, 70, 80 to the next ten, and "Zone 5" means not
    below 90 - at least 90 unless the percentage is a NaN. *)
Theorem get_intensity_zone_label_sound
    (g g' : Globals) (heart_rate max_hr : float) (z : IntensityZone) :
  get_intensity_zone heart_rate max_hr g = (Return z, g') ->
  let percentage := heart_rate / max_hr * 100 in
  (max_hr =? 0) = false /\ g' = g /\
  (zone z = "Rest"%string -> (percentage <? 50) = true) /\
  (zone z = "Zone 1"%string ->
     (50 <=? percentage) = true /\ (percentage <? 60) = true) /\
  (zone z = "Zone 2"%string ->
     (60 <=? percentage) = true /\ (percentage <? 70) = true) /\
  (zone z = "Zone 3"%string ->
     (70 <=? percentage) = true /\ (percentage <? 80) = true) /\
  (zone z = "Zone 4"%string ->
     (80 <=? percentage) = true /\ (percentage <? 90) = true) /\
  (zone z = "Zone 5"%string ->
     (percentage <? 90) = false /\
     ((percentage =? percentage) = true -> (90 <=? percentage) = true)).
Proof.
  intros Hret percentage.
  unfold get_intensity_zone, bind, py_truediv in Hret.
  destruct (max_hr =? 0) eqn:Hnz; [discriminate Hret |].
  cbv [ret] in Hret. fold percentage in Hret.
  split; [reflexivity |].
  destruct (percentage <? 50) eqn:E50;
    [| destruct (percentage <? 60) eqn:E60;
       [| destruct (percentage <? 70) eqn:E70;
          [| destruct (percentage <? 80) eqn:E80;
             [| destruct (percentage <? 90) eqn:E90 ]]]];
    inversion Hret; subst; simpl zone;
    (split; [reflexivity |]);
    repeat split; intros;
    try match goal with H : @eq string _ _ |- _ => discriminate H end;
    try assumption;
    try (eapply between_thresholds; [reflexivity | eassumption | assumption]).
  apply ltb_false_leb_true;
    [ apply eqb_refl_true_not_nan; assumption
    | apply eqb_refl_true_not_nan; reflexivity
    | assumption ].
Qed.

Lemma get_intensity_zone_label_sound_witness :
  exists z,
    get_intensity_zone 140 195 script_globals = (Return z, script_globals) /\
    zone z = "Zone 3"%string /\
    (70 <=? 140 / 195 * 100) = true /\ (140 / 195 * 100 <? 80) = true.
Proof.
  eexists. split; [reflexivity |]. split; [reflexivity |].
  apply (get_intensity_zone_label_sound
           script_globals script_globals 140 195 _ eq_refl).
  reflexivity.
Defined.

(** ** The ladder keeps the order *)

(** X3.  A larger percentage never gets a lower zone: when two calls return
    and the percentage of the first is at most that of the second, the zone
    of the first comes no later in Rest, Zone 1, ..., Zone 5 than the zone
    of the second. *)
Theorem get_intensity_zone_monotone
    (g1 g2 g1' g2' : Globals) (hr1 mhr1 hr2 mhr2 : float)
    (z1 z2 : IntensityZone) :
  get_intensity_zone hr1 mhr1 g1 = (Return z1, g1') ->
  get_intensity_zone hr2 mhr2 g2 = (Return z2, g2') ->
  (hr1 / mhr1 * 100 <=? hr2 / mhr2 * 100) = true ->
  index_of (zone z1) zone_order <= index_of (zone z2) zone_order.
Proof.
  unfold get_intensity_zone, bind, py_truediv.
  destruct (mhr1 =? 0); [discriminate |].
  destruct (mhr2 =? 0); [intros _; discriminate |].
  cbv [ret].
  generalize (hr1 / mhr1 * 100) (hr2 / mhr2 * 100). intros p1 p2 H1 H2 Hle.
  assert (Hdown : forall c, (p2 <? c) = true -> (p1 <? c) = true)
    by (intros c; apply leb_ltb_trans; exact Hle).
  clear Hle.
  destruct (p2 <? 50) eqn:F50;
    [| destruct (p2 <? 60) eqn:F60;
       [| destruct (p2 <? 70) eqn:F70;
          [| destruct (p2 <? 80) eqn:F80;
             [| destruct (p2 <? 90) eqn:F90 ]]]];
    inversion H2; subst z2; clear H2;
    try match goal with
    | F : (p2 <? ?c) = true |- _ => pose proof (Hdown c F)
    end;
    clear Hdown;
    (destruct (p1 <? 50) eqn:E50;
     [| destruct (p1 <? 60) eqn:E60;
        [| destruct (p1 <? 70) eqn:E70;
           [| destruct (p1 <? 80) eqn:E80;
              [| destruct (p1 <? 90) eqn:E90 ]]]]);
    inversion H1; subst z1; clear H1;
    vm_compute; first [ lia | float_order ].
Qed.

Lemma get_intensity_zone_monotone_witness :
  exists z1 z2,
    get_intensity_zone 110 195 script_globals = (Return z1, script_globals) /\
    get_intensity_zone 170 195 script_globals = (Return z2, script_globals) /\
    (110 / 195 * 100 <=? 170 / 195 * 100) = true /\
    index_of (zone z1) zone_order <= index_of (zone z2) zone_order.
Proof.
  eexists. eexists.
  split; [reflexivity |]. split; [reflexivity |]. split; [reflexivity |].
  exact (get_intensity_zone_monotone
           script_globals script_globals script_globals script_globals
           110 195 170 195 _ _ eq_refl eq_refl eq_refl).
Defined.

(** ** NaN and the last branches *)

Lemma get_intensity_zone_not_below_90
    (g : Globals) (heart_rate max_hr : float) :
  (max_hr =? 0) = false ->
  (heart_rate / max_hr * 100 <? 90) = false ->
  get_intensity_zone heart_rate max_hr g = (Return max_zone, g).
Proof.
  intros Hnz. unfold get_intensity_zone, bind.
  rewrite (py_truediv_nonzero g heart_rate max_hr Hnz).
  generalize (heart_rate / max_hr * 100). intros p E90.
  destruct (p <? 50) eqn:E50; [float_order |].
  destruct (p <? 60) eqn:E60; [float_order |].
  destruct (p <? 70) eqn:E70; [float_order |].
  destruct (p <? 80) eqn:E80; [float_order |].
  rewrite E90. reflexivity.
Qed.

(** X4.  A NaN fails every comparison and so falls to the last branch of
    each ladder: a NaN percentage is Zone 5, a NaN burn rate is
    "Improvement", a NaN body mass index is "Overweight".  The burn rate of
    a zero prediction over a zero duration is such a NaN. *)
Theorem nan_takes_last_branch (x : float) :
  (x =? x) = false ->
  (forall (g : Globals) (heart_rate max_hr : float),
     (max_hr =? 0) = false -> heart_rate / max_hr * 100 = x ->
     get_intensity_zone heart_rate max_hr g = (Return max_zone, g)) /\
  (exists r,
     recommendation x script_globals = (Return r, script_globals) /\
     rec_title r = "Improvement"%string) /\
  bmi_status x = "Overweight"%string /\
  (forall g, cal_per_min 0 0 g = (Return x, g)).
Proof.
  intros Hnan.
  pose proof (eqb_refl_false_nan x Hnan) as E.
  split; [| split; [| split]].
  - intros g heart_rate max_hr Hnz Hp.
    apply get_intensity_zone_not_below_90; [exact Hnz |].
    rewrite Hp. apply (nan_compares_false x 90 E).
  - unfold recommendation.
    destruct (nan_compares_false x 10 E) as (_ & -> & _ & _).
    destruct (nan_compares_false x 7 E) as (_ & -> & _ & _).
    eexists. split; reflexivity.
  - unfold bmi_status.
    destruct (nan_compares_false x 18.5 E) as (-> & _ & _ & ->).
    reflexivity.
  - intros g. unfold cal_per_min, np_truediv, ret.
    replace x with (0 / 0); [reflexivity |].
    apply Prim2SF_inj. rewrite E. reflexivity.
Qed.

Lemma nan_takes_last_branch_witness :
  (0 / 0 =? 0 / 0) = false /\
  (exists r,
     recommendation (0 / 0) script_globals = (Return r, script_globals) /\
     rec_title r = "Improvement"%string) /\
  get_intensity_zone infinity infinity script_globals
    = (Return max_zone, script_globals).
Proof.
  split; [reflexivity |].
  destruct (nan_takes_last_branch (0 / 0) eq_refl) as [Hzone [Hrec _]].
  split; [exact Hrec |].
  apply Hzone; reflexivity.
Defined.

(** ** The percentage on the sliders *)

Lemma percentage_in_bounds_on_sliders :
  forallb (fun hr => forallb (percentage_in_bounds hr) age_slider)
          heart_rate_slider = true.
Proof. vm_compute. reflexivity. Qed.

Lemma percentage_over_100_on_sliders :
  forallb (fun hr => forallb (percentage_over_100 hr) age_slider)
          heart_rate_slider = true.
Proof. vm_compute. reflexivity. Qed.

Lemma on_sliders (check : Z -> Z -> bool) (hr a : Z) :
  forallb (fun hr => forallb (check hr) age_slider) heart_rate_slider = true ->
  (60 <= hr <= 220)%Z -> (10 <= a <= 100)%Z -> check hr a = true.
Proof.
  intros Hall Hhr Ha.
  rewrite forallb_forall in Hall.
  assert (Hin : In hr heart_rate_slider)
    by (apply In_Z_range; change (Z.of_nat 161) with 161%Z; lia).
  specialize (Hall hr Hin). rewrite forallb_forall in Hall.
  apply Hall, In_Z_range. change (Z.of_nat 91) with 91%Z. lia.
Qed.

Lemma max_hr_on_sliders_nonzero (a : Z) :
  (10 <= a <= 100)%Z -> (float_of_int (220 - a) =? 0) = false.
Proof.
  intros Ha. pose proof max_hr_slider_nonzero as Hall.
  rewrite forallb_forall in Hall.
  apply negb_true_iff, Hall, In_Z_range.
  change (Z.of_nat 91) with 91%Z. lia.
Qed.

(** X5.  On the sliders the heart rate can exceed the estimated maximum
    [220 - age].  Exactly then the percentage is above 100, and the zone
    returned is Zone 5, whose range reads "90-100%". *)
Theorem heart_rate_above_maximum (g : Globals) (hr a : Z) :
  (60 <= hr <= 220)%Z -> (10 <= a <= 100)%Z ->
  ((220 - a < hr)%Z ->
     (100 <? slider_percentage hr a) = true /\
     get_intensity_zone (float_of_int hr) (float_of_int (220 - a)) g
       = (Return max_zone, g) /\
     range max_zone = "90-100%"%string) /\
  ((hr <= 220 - a)%Z -> (slider_percentage hr a <=? 100) = true).
Proof.
  intros Hhr Ha.
  pose proof (on_sliders percentage_over_100 hr a
                percentage_over_100_on_sliders Hhr Ha) as Hchk.
  unfold percentage_over_100 in Hchk.
  split.
  - intros Hover.
    assert (Hlt : (220 - a <? hr)%Z = true) by (apply Z.ltb_lt; exact Hover).
    rewrite Hlt in Hchk.
    split; [exact Hchk |]. split; [| reflexivity].
    apply get_intensity_zone_not_below_90;
      [exact (max_hr_on_sliders_nonzero a Ha) |].
    fold (slider_percentage hr a).
    destruct (slider_percentage hr a <? 90) eqn:E90; [| reflexivity].
    assert (H : (100 <? 90) = true)
      by (apply (ltb_trans 100 (slider_percentage hr a) 90); assumption).
    discriminate H.
  - intros Hle.
    assert (Hge : (220 - a <? hr)%Z = false) by (apply Z.ltb_ge; exact Hle).
    rewrite Hge in Hchk. exact Hchk.
Qed.

Lemma heart_rate_above_maximum_witness :
  (60 <= 220 <= 220)%Z /\ (10 <= 100 <= 100)%Z /\ (220 - 100 < 220)%Z /\
  get_intensity_zone (float_of_int 220) (float_of_int (220 - 100))
                     script_globals
    = (Return max_zone, script_globals).
Proof.
  assert (Hhr : (60 <= 220 <= 220)%Z) by lia.
  assert (Ha : (10 <= 100 <= 100)%Z) by lia.
  assert (Hov : (220 - 100 < 220)%Z) by lia.
  split; [exact Hhr |]. split; [exact Ha |]. split; [exact Hov |].
  apply (heart_rate_above_maximum script_globals 220 100 Hhr Ha). exact Hov.
Defined.

(** X6.  On the sliders the percentage of line 343 is computed without an
    exception and lies between 28.5 and 183.4: it is never a NaN or an
    infinity, it can be below 50 and it can be far above 100. *)
Theorem hr_percentage_on_sliders (g : Globals) (hr a : Z) :
  (60 <= hr <= 220)%Z -> (10 <= a <= 100)%Z ->
  exists p,
    hr_percentage (float_of_int hr) (float_of_int (220 - a)) g
      = (Return p, g) /\
    (28.5 <=? p) = true /\ (p <=? 183.4) = true.
Proof.
  intros Hhr Ha.
  pose proof (on_sliders percentage_in_bounds hr a
                percentage_in_bounds_on_sliders Hhr Ha) as Hchk.
  unfold percentage_in_bounds in Hchk. apply andb_prop in Hchk.
  exists (slider_percentage hr a). split; [| exact Hchk].
  unfold hr_percentage, bind.
  rewrite (py_truediv_nonzero g _ _ (max_hr_on_sliders_nonzero a Ha)).
  reflexivity.
Qed.

Lemma hr_percentage_on_sliders_witness :
  (60 <= 60 <= 220)%Z /\ (10 <= 10 <= 100)%Z /\
  exists p,
    hr_percentage (float_of_int 60) (float_of_int (220 - 10)) script_globals
      = (Return p, script_globals) /\
    (28.5 <=? p) = true /\ (p <=? 183.4) = true.
Proof.
  assert (Hhr : (60 <= 60 <= 220)%Z) by lia.
  assert (Ha : (10 <= 10 <= 100)%Z) by lia.
  split; [exact Hhr |]. split; [exact Ha |].
  exact (hr_percentage_on_sliders script_globals 60 10 Hhr Ha).
Defined.

(** ** The recommendation and the colour table *)

Lemma leb_false_ltb_true (x y : float) :
  Prim2SF x <> S754_nan -> Prim2SF y <> S754_nan ->
  (x <=? y) = false -> (y <? x) = true.
Proof.
  intros Hx Hy. rewrite leb_spec, ltb_spec. unfold SFleb, SFltb.
  rewrite (SFcompare_swap (Prim2SF x) (Prim2SF y)).
  destruct (SFcompare (Prim2SF x) (Prim2SF y)) as [[ | | ] | ] eqn:E;
    simpl; intros H; try reflexivity; try discriminate H.
  destruct (SFcompare_None _ _ E); contradiction.
Qed.

(** A failed lookup raises [KeyError] with the key looked up. *)
Lemma dict_getitem_raise (d : dict) (key : string) (e : exn) :
  dict_getitem d key = Raise e -> e = KeyError key.
Proof.
  induction d as [| [k v] rest IH]; simpl.
  - intros H. inversion H. reflexivity.
  - destruct (String.eqb k key); [discriminate | exact IH].
Qed.

(** A lookup succeeds exactly on the keys that some entry carries. *)
Lemma dict_getitem_return_iff (d : dict) (key : string) :
  (exists v, dict_getitem d key = Return v) <-> In key (map fst d).
Proof.
  induction d as [| [k v] rest IH]; simpl.
  - split; [intros [v H]; discriminate H | contradiction].
  - destruct (String.eqb k key) eqn:E.
    + apply String.eqb_eq in E. split; [auto | intros _; eauto].
    + apply String.eqb_neq in E. rewrite IH. split; [auto |].
      intros [H | H]; [contradiction | exact H].
Qed.

(** X7.  Under any globals, a recommendation that is returned tells the
    burn rate and carries the colour bound in the table: "Excellent" means
    above 10 and the colour under 'success'; "Good" means above 7 and at
    most 10, under 'secondary'; "Improvement" means not above 7 - at most 7
    unless the rate is a NaN - under 'warning'.  The globals are left as
    they were. *)
Theorem recommendation_title_sound
    (g g' : Globals) (c : float) (r : Recommendation) :
  recommendation c g = (Return r, g') ->
  g' = g /\
  (rec_title r = "Excellent"%string ->
     (10 <? c) = true /\
     dict_getitem (MEDICAL_COLORS g) "success" = Return (rec_color r)) /\
  (rec_title r = "Good"%string ->
     (7 <? c) = true /\ (c <=? 10) = true /\
     dict_getitem (MEDICAL_COLORS g) "secondary" = Return (rec_color r)) /\
  (rec_title r = "Improvement"%string ->
     (7 <? c) = false /\
     ((c =? c) = true -> (c <=? 7) = true) /\
     dict_getitem (MEDICAL_COLORS g) "warning" = Return (rec_color r)).
Proof.
  unfold recommendation, bind, global_color, ret.
  destruct (10 <? c) eqn:E10; [| destruct (7 <? c) eqn:E7];
    match goal with
    | |- context [dict_getitem ?d ?k] => destruct (dict_getitem d k) eqn:Ek
    end;
    intros H; inversion H; subst; clear H; simpl rec_title; simpl rec_color;
    (split; [reflexivity |]);
    repeat split; intros;
    try match goal with H : @eq string _ _ |- _ => discriminate H end;
    try assumption.
  - apply ltb_false_leb_true;
      [ apply eqb_refl_true_not_nan; reflexivity
      | exact (ltb_true_not_nan_r 7 c E7)
      | exact E10 ].
  - apply ltb_false_leb_true;
      [ apply eqb_refl_true_not_nan; reflexivity
      | apply eqb_refl_true_not_nan; assumption
      | exact E7 ].
Qed.

Lemma recommendation_title_sound_witness :
  exists r,
    recommendation 12.5 script_globals = (Return r, script_globals) /\
    rec_title r = "Excellent"%string /\
    (10 <? 12.5) = true /\
    dict_getitem (MEDICAL_COLORS script_globals) "success"
      = Return (rec_color r).
Proof.
  eexists. split; [reflexivity |]. split; [reflexivity |].
  apply (recommendation_title_sound
           script_globals script_globals 12.5 _ eq_refl).
  reflexivity.
Defined.

(** X8.  The recommendation can fail in one way only: the colour of the
    tier is missing from the table.  It then raises [KeyError] with the key
    of that tier - 'success' above 10, 'secondary' above 7, 'warning'
    otherwise - no entry of the table carries that key, and the globals are
    left as they were. *)
Theorem recommendation_raises_key_error
    (g g' : Globals) (c : float) (e : exn) :
  recommendation c g = (Raise e, g') ->
  g' = g /\
  exists key,
    e = KeyError key /\
    ~ In key (map fst (MEDICAL_COLORS g)) /\
    ((10 <? c) = true /\ key = "success"%string \/
     (10 <? c) = false /\ (7 <? c) = true /\ key = "secondary"%string \/
     (7 <? c) = false /\ key = "warning"%string).
Proof.
  unfold recommendation, bind, global_color, ret.
  destruct (10 <? c) eqn:E10; [| destruct (7 <? c) eqn:E7];
    match goal with
    | |- context [dict_getitem ?d ?k] =>
        destruct (dict_getitem d k) eqn:Ek;
        [ intros H; discriminate H | ];
        pose proof (dict_getitem_raise d k _ Ek) as Hkey;
        intros H; inversion H; subst;
        (split; [reflexivity |]); exists k;
        (split; [reflexivity |]);
        (split;
         [ intros Hin; apply dict_getitem_return_iff in Hin;
           destruct Hin as [v Hv]; rewrite Hv in Ek; discriminate Ek
         | ])
    end.
  - left. split; reflexivity.
  - right. left. repeat split; reflexivity.
  - right. right. split; reflexivity.
Qed.

Lemma recommendation_raises_key_error_witness :
  let g := {| MEDICAL_COLORS := [("primary", "#2C5F8D")] |} in
  recommendation 8 g = (Raise (KeyError "secondary"), g) /\
  ~ In "secondary"%string (map fst (MEDICAL_COLORS g)).
Proof.
  intros g. split; [reflexivity |].
  destruct (recommendation_raises_key_error g g 8 (KeyError "secondary")
              eq_refl) as [_ [key [Hkey [Hnot _]]]].
  inversion Hkey; subst key. exact Hnot.
Defined.

(** ** Reading the BMI back from its label *)

(** X9.  The label tells where the BMI is: "Underweight" means below 18.5,
    "Normal" means from 18.5 to 24.9, and "Overweight" means not below 18.5
    and not in that interval - above 24.9 unless the BMI is a NaN; so a BMI
    between 24.9 and 25 is already "Overweight". *)
Theorem bmi_status_label_sound (b : float) :
  (bmi_status b = "Underweight"%string -> (b <? 18.5) = true) /\
  (bmi_status b = "Normal"%string ->
     (18.5 <=? b) = true /\ (b <=? 24.9) = true) /\
  (bmi_status b = "Overweight"%string ->
     (b <? 18.5) = false /\
     ((b =? b) = true -> (24.9 <? b) = true)) /\
  ((24.9 <? b) = true -> (b <? 25) = true ->
     bmi_status b = "Overweight"%string).
Proof.
  unfold bmi_status.
  destruct (18.5 <=? b) eqn:Elo; destruct (b <=? 24.9) eqn:Ehi;
    destruct (b <? 18.5) eqn:Elt; simpl;
    repeat split; intros;
    try match goal with H : @eq string _ _ |- _ => discriminate H end;
    try assumption; try reflexivity;
    try (apply leb_false_ltb_true;
         [ apply eqb_refl_true_not_nan; assumption
         | apply eqb_refl_true_not_nan; reflexivity
         | assumption ]);
    try (exfalso;
         repeat match goal with
         | H : (_ <=? _) = true |- _ => apply leb_true_ltb_false in H
         end; congruence).
  - (* neither at least 18.5 nor below it: only a NaN *)
    exfalso.
    match goal with H : (b =? b) = true |- _ =>
      pose proof (ltb_false_leb_true b 18.5
                    (eqb_refl_true_not_nan b H)
                    (eqb_refl_true_not_nan 18.5 eq_refl) Elt) as Hge
    end.
    congruence.
  - (* below 18.5 and above 24.9 *)
    exfalso.
    match goal with H : (24.9 <? b) = true |- _ =>
      pose proof (ltb_trans 24.9 b 18.5 H Elt) as Habs
    end.
    discriminate Habs.
Qed.

Lemma bmi_status_label_sound_witness :
  bmi_status (72 / (170 / 100 * (170 / 100))) = "Overweight"%string /\
  (24.9 <? 72 / (170 / 100 * (170 / 100))) = true /\
  (72 / (170 / 100 * (170 / 100)) <? 25) = true.
Proof.
  split; [| split; reflexivity].
  apply (bmi_status_label_sound (72 / (170 / 100 * (170 / 100))));
    reflexivity.
Defined.

(** ** The tiers and the BMI labels keep the order *)

(** X10.  A larger burn rate never gets a lower tier: when two
    recommendations are returned and the first rate is at most the second,
    the first title comes no later in Improvement, Good, Excellent than the
    second. *)
Theorem recommendation_monotone
    (g1 g2 g1' g2' : Globals) (c1 c2 : float) (r1 r2 : Recommendation) :
  recommendation c1 g1 = (Return r1, g1') ->
  recommendation c2 g2 = (Return r2, g2') ->
  (c1 <=? c2) = true ->
  index_of (rec_title r1) tier_order <= index_of (rec_title r2) tier_order.
Proof.
  intros H1 H2 Hle.
  assert (Hup : forall c, (c <? c1) = true -> (c <? c2) = true)
    by (intros c Hc; exact (ltb_leb_trans c c1 c2 Hc Hle)).
  revert H1 H2. unfold recommendation, bind, global_color, ret.
  destruct (10 <? c1) eqn:E10; [| destruct (7 <? c1) eqn:E7];
    try match goal with
    | E : (?c <? c1) = true |- _ => pose proof (Hup c E)
    end;
    (destruct (10 <? c2) eqn:F10; [| destruct (7 <? c2) eqn:F7]);
    repeat match goal with
    | |- context [dict_getitem ?d ?k] => destruct (dict_getitem d k)
    end;
    intros H1 H2; try discriminate H1; try discriminate H2;
    inversion H1; inversion H2; subst; simpl rec_title;
    vm_compute; try lia; exfalso; congruence.
Qed.

Lemma recommendation_monotone_witness :
  exists r1 r2,
    recommendation 6.5 script_globals = (Return r1, script_globals) /\
    recommendation 11 script_globals = (Return r2, script_globals) /\
    (6.5 <=? 11) = true /\
    index_of (rec_title r1) tier_order <= index_of (rec_title r2) tier_order.
Proof.
  eexists. eexists.
  split; [reflexivity |]. split; [reflexivity |]. split; [reflexivity |].
  exact (recommendation_monotone
           script_globals script_globals script_globals script_globals
           6.5 11 _ _ eq_refl eq_refl eq_refl).
Defined.

(** X11.  A larger BMI never gets a lower label: if [b1 <= b2] then the
    label of [b1] comes no later in Underweight, Normal, Overweight than
    the label of [b2]. *)
Theorem bmi_status_monotone (b1 b2 : float) :
  (b1 <=? b2) = true ->
  index_of (bmi_status b1) bmi_order <= index_of (bmi_status b2) bmi_order.
Proof.
  intros Hle.
  pose proof (leb_true_not_nan_r b1 b2 Hle) as Hn2.
  assert (Hn1 : Prim2SF b1 <> S754_nan).
  { intros E. destruct (nan_compares_false b1 b2 E) as (_ & _ & Hf & _).
    congruence. }
  assert (Hc : Prim2SF 18.5 <> S754_nan)
    by (apply eqb_refl_true_not_nan; reflexivity).
  unfold bmi_status.
  destruct (18.5 <=? b1) eqn:Elo1; destruct (b1 <=? 24.9) eqn:Ehi1;
    destruct (b1 <? 18.5) eqn:Elt1;
    destruct (18.5 <=? b2) eqn:Elo2; destruct (b2 <=? 24.9) eqn:Ehi2;
    destruct (b2 <? 18.5) eqn:Elt2; simpl;
    vm_compute; try lia; exfalso;
    (* b2 is below 18.5 or at most 24.9, and b1 with it *)
    try (pose proof (leb_ltb_trans b1 b2 18.5 Hle Elt2); congruence);
    try (pose proof (leb_trans b1 b2 24.9 Hle Ehi2); congruence);
    (* an impossible triple for one value *)
    try (pose proof (ltb_false_leb_true b2 18.5 Hn2 Hc Elt2); congruence);
    try (pose proof (ltb_false_leb_true b1 18.5 Hn1 Hc Elt1); congruence);
    try (pose proof (leb_true_ltb_false 18.5 b1 Elo1); congruence);
    try (pose proof (leb_true_ltb_false 18.5 b2 Elo2); congruence).
Qed.

Lemma bmi_status_monotone_witness :
  (18 <=? 27) = true /\
  index_of (bmi_status 18) bmi_order <= index_of (bmi_status 27) bmi_order.
Proof.
  split; [reflexivity |].
  exact (bmi_status_monotone 18 27 eq_refl).
Defined.

(** ** The classifier against the table of the fourth tab *)

(** X12.  Whatever [get_intensity_zone] returns is either the Rest zone,
    which the table of the fourth tab does not list, or a zone of that
    table: some row has its name under 'Zone', its level under 'Intensity'
    and its range under 'HR % of Max'. *)
Theorem zones_data_lists_returned_zone
    (g g' : Globals) (heart_rate max_hr : float) (z : IntensityZone) :
  get_intensity_zone heart_rate max_hr g = (Return z, g') ->
  (z = rest_zone /\
   forall i, frame_cell zones_data "Zone" i <> Some "Rest"%string) \/
  (exists i,
     frame_cell zones_data "Zone" i = Some (zone z) /\
     frame_cell zones_data "Intensity" i = Some (level z) /\
     frame_cell zones_data "HR % of Max" i = Some (range z)).
Proof.
  unfold get_intensity_zone, bind, py_truediv.
  destruct (max_hr =? 0); [discriminate |].
  cbv [ret]. generalize (heart_rate / max_hr * 100). intros p.
  destruct (p <? 50);
    [| destruct (p <? 60);
       [| destruct (p <? 70);
          [| destruct (p <? 80); [| destruct (p <? 90) ]]]];
    intros H; inversion H; subst; clear H.
  - left. split; [reflexivity |].
    intros i. do 6 (destruct i as [| i]; [discriminate |]).
    destruct i; discriminate.
  - right. exists 0%nat. repeat split.
  - right. exists 1%nat. repeat split.
  - right. exists 2%nat. repeat split.
  - right. exists 3%nat. repeat split.
  - right. exists 4%nat. repeat split.
Qed.

Lemma zones_data_lists_returned_zone_witness :
  exists z i,
    get_intensity_zone 170 195 script_globals = (Return z, script_globals) /\
    frame_cell zones_data "Zone" i = Some (zone z) /\
    frame_cell zones_data "Intensity" i = Some (level z) /\
    frame_cell zones_data "HR % of Max" i = Some (range z).
Proof.
  eexists.
  destruct (zones_data_lists_returned_zone
              script_globals script_globals 170 195 _ eq_refl)
    as [[Hrest _] | [i Hi]].
  - discriminate Hrest.
  - exists i. split; [reflexivity | exact Hi].
Defined.

(** ** Where the handler and the evaluation can fail *)

Lemma max_hr_zero_at_220_checked :
  forallb max_hr_zero_at_220 age_range_to_250 = true.
Proof. vm_compute. reflexivity. Qed.

(** X13.  For an age from 0 to 250 and a heart rate of at most [2^53] in
    magnitude, the percentage of line 343 raises [ZeroDivisionError]
    exactly at age 220, where the maximum heart rate is 0.  The handler
    then stops there, whatever the other inputs, the model and the globals;
    at every other such age the percentage is computed. *)
Theorem analyze_zero_division_at_220
    (model_predict : InputData -> float) (w : WorkoutInput) (g : Globals) :
  (0 <= age w <= 250)%Z ->
  (- 2 ^ 53 <= heart_rate w <= 2 ^ 53)%Z ->
  (age w = 220%Z ->
     analyze model_predict w g = (Raise ZeroDivisionError, g)) /\
  (age w <> 220%Z ->
     hr_percentage (float_of_int (heart_rate w))
                   (float_of_int (220 - age w)) g
       = (Return (float_of_int (heart_rate w)
                    / float_of_int (220 - age w) * 100), g)).
Proof.
  intros Hage _. split.
  - intros E. unfold analyze, calculate_max_heart_rate. rewrite E.
    reflexivity.
  - intros Hne.
    pose proof max_hr_zero_at_220_checked as Hall.
    rewrite forallb_forall in Hall.
    assert (Hin : In (age w) age_range_to_250)
      by (apply In_Z_range; change (Z.of_nat 251) with 251%Z; lia).
    specialize (Hall (age w) Hin). unfold max_hr_zero_at_220 in Hall.
    apply Bool.eqb_prop in Hall.
    assert (Hnz : (float_of_int (220 - age w) =? 0) = false).
    { rewrite Hall. apply Z.eqb_neq. exact Hne. }
    unfold hr_percentage, bind.
    rewrite (py_truediv_nonzero g _ _ Hnz). reflexivity.
Qed.

Lemma analyze_zero_division_at_220_witness :
  let w := mkWorkoutInput "Male" 220 170 70 30 120 37.5 in
  (0 <= age w <= 250)%Z /\ (- 2 ^ 53 <= heart_rate w <= 2 ^ 53)%Z /\
  age w = 220%Z /\
  analyze (fun _ => 231.5) w script_globals
    = (Raise ZeroDivisionError, script_globals).
Proof.
  intros w.
  assert (Ha : (0 <= age w <= 250)%Z) by (simpl; lia).
  assert (Hhr : (- 2 ^ 53 <= heart_rate w <= 2 ^ 53)%Z) by (simpl; lia).
  split; [exact Ha |]. split; [exact Hhr |]. split; [reflexivity |].
  apply (analyze_zero_division_at_220 (fun _ => 231.5) w script_globals
           Ha Hhr).
  reflexivity.
Defined.

(** X14.  Under the script's globals the evaluation fails only through its
    two Python divisions, and the zone comes first: it raises
    [ZeroDivisionError] when [max_hr] is zero, else whatever the BMI
    expression raises, and otherwise returns a report whose burn rate is
    [prediction / duration], whose zone and BMI are those of
    [get_intensity_zone] and of the BMI expression, and whose label and
    recommendation are those of that BMI and that burn rate.  The duration
    never makes it fail. *)
Theorem evaluate_outcomes
    (prediction duration heart_rate max_hr height weight : float) :
  match evaluate prediction duration heart_rate max_hr height weight
                 script_globals with
  | (Return report, g') =>
      g' = script_globals /\
      (max_hr =? 0) = false /\
      report_cal_per_min report = prediction / duration /\
      get_intensity_zone heart_rate max_hr script_globals
        = (Return (report_intensity report), script_globals) /\
      bmi weight height script_globals
        = (Return (report_bmi report), script_globals) /\
      report_bmi_status report = bmi_status (report_bmi report) /\
      recommendation (prediction / duration) script_globals
        = (Return (report_recommendation report), script_globals)
  | (Raise e, g') =>
      g' = script_globals /\
      ((max_hr =? 0) = true /\ e = ZeroDivisionError \/
       (max_hr =? 0) = false /\
       bmi weight height script_globals = (Raise e, script_globals))
  end.
Proof.
  unfold evaluate, cal_per_min, np_truediv.
  cbv [bind ret].
  destruct (max_hr =? 0) eqn:Hnz.
  - unfold get_intensity_zone, bind.
    rewrite (py_truediv_zero script_globals heart_rate max_hr Hnz).
    split; [reflexivity |]. left. split; reflexivity.
  - destruct (get_intensity_zone_returns script_globals heart_rate max_hr Hnz)
      as [z Hz].
    rewrite Hz.
    pose proof (preserves_bmi weight height script_globals) as Hg.
    destruct (bmi weight height script_globals) as [[b | e] g1] eqn:Hb;
      simpl in Hg; subst g1.
    + destruct (recommendation_returns (prediction / duration)) as [r Hr].
      rewrite Hr. simpl. repeat split; assumption.
    + split; [reflexivity |]. right. split; reflexivity.
Qed.

(** ** The BMI on the sliders *)

Lemma bmi_in_bounds_on_sliders :
  forallb (fun h => forallb (bmi_in_bounds h) weight_slider) height_slider
    = true.
Proof. vm_compute. reflexivity. Qed.

(** X15.  On the sliders the BMI expression returns a value between 4.8 and
    200: the square of the height neither overflows nor vanishes, and the
    value is never a NaN or an infinity. *)
Theorem bmi_on_sliders (g : Globals) (h w : Z) :
  (100 <= h <= 250)%Z -> (30 <= w <= 200)%Z ->
  exists b,
    bmi (float_of_int w) (float_of_int h) g = (Return b, g) /\
    (4.8 <=? b) = true /\ (b <=? 200) = true.
Proof.
  intros Hh Hw. exists (slider_bmi h w).
  split; [exact (bmi_sliders g h w Hh Hw) |].
  pose proof bmi_in_bounds_on_sliders as Hall.
  rewrite forallb_forall in Hall.
  assert (Hin_h : In h height_slider)
    by (apply In_Z_range; change (Z.of_nat 151) with 151%Z; lia).
  specialize (Hall h Hin_h). rewrite forallb_forall in Hall.
  assert (Hin_w : In w weight_slider)
    by (apply In_Z_range; change (Z.of_nat 171) with 171%Z; lia).
  specialize (Hall w Hin_w). unfold bmi_in_bounds in Hall.
  apply andb_prop in Hall. exact Hall.
Qed.

Lemma bmi_on_sliders_witness :
  (100 <= 250 <= 250)%Z /\ (30 <= 30 <= 200)%Z /\
  exists b,
    bmi (float_of_int 30) (float_of_int 250) script_globals
      = (Return b, script_globals) /\
    (4.8 <=? b) = true /\ (b <=? 200) = true.
Proof.
  assert (Hh : (100 <= 250 <= 250)%Z) by lia.
  assert (Hw : (30 <= 30 <= 200)%Z) by lia.
  split; [exact Hh |]. split; [exact Hw |].
  exact (bmi_on_sliders script_globals 250 30 Hh Hw).
Defined.
